(** * Workspace delete handler (theia, packages/workspace): a shallow embedding

    The handler [WorkspaceDeleteHandler] gates the "delete" command on a
    selection of URIs ([isVisible], [isEnabled]), asks for confirmation
    with a message that depends on the selection and on the dirty editors
    ([confirm], [getConfirmMessage], [getDirty]) and then deletes every
    selected resource after closing the widgets that show it ([execute],
    [delete], [closeWithoutSaving]).

    The handler is embedded function by function.  Its collaborators
    (URI, the application shell and its widgets, the file system, the
    confirmation dialog, the workspace utilities) live in other packages;
    they are modelled below, each under a comment that says so. *)

From Stdlib Require Import List String Ascii Bool Arith Lia DecimalString.
Import ListNotations.
Local Open Scope list_scope.
Local Open Scope string_scope.

Set Implicit Arguments.
Set Warnings "-register-all".

(** ** Paths and URIs *)

Module Path.

(** Modelled from the spec: the class [Path] of @theia/core is missing.
    A resource identifier is "a path-like string"; a path is kept as its
    segments, root first. *)
Definition Path := list string.

(** Modelled from the spec: [path.base], the base name of a resource,
    is the last segment (empty for the root path). *)
Definition base (p : Path) : string := last p "".

Definition toString (p : Path) : string :=
  fold_right (fun seg acc => "/" ++ seg ++ acc) "" p.

(** Modelled from the spec: ancestry on paths.  [isEqualOrParent p q]
    holds when [q] is [p] or lies below [p]. *)
Fixpoint isEqualOrParent (p q : Path) : bool :=
  match p, q with
  | [], _ => true
  | _ :: _, [] => false
  | a :: p', b :: q' => String.eqb a b && isEqualOrParent p' q'
  end.

Fixpoint isEqual (p q : Path) : bool :=
  match p, q with
  | [], [] => true
  | a :: p', b :: q' => String.eqb a b && isEqual p' q'
  | _, _ => false
  end.

End Path.

(** Modelled from the spec: the class [URI] of @theia/core is missing.
  "ResourceId: an opaque, comparable identifier for a storage
  location"; it carries a scheme and a path. *)
Record URI : Type := mkURI {
scheme : string;
path : Path.Path
}.

Module Uri.

Definition toString (u : URI) : string :=
  scheme u ++ "://" ++ Path.toString (path u).

Definition isEqual (u v : URI) : bool :=
  String.eqb (scheme u) (scheme v) && Path.isEqual (path u) (path v).

(** [u.isEqualOrParent(v)]: [v] is [u] or a descendant of [u]. *)
Definition isEqualOrParent (u v : URI) : bool :=
  String.eqb (scheme u) (scheme v) && Path.isEqualOrParent (path u) (path v).

(** [u] is a proper ancestor of [v]. *)
Definition isParent (u v : URI) : bool :=
  isEqualOrParent u v && negb (isEqual u v).

(** Modelled from the spec: [URI.getDistinctParents] is missing
    (the spec's [reduceToDistinctRoots]).  "Reduce the selection to its
    distinct-parents form (drop any identifier that is a descendant of
    another identifier in the same selection)"; the order of the
    selection is kept. *)
Definition getDistinctParents (uris : list URI) : list URI :=
  filter (fun uri => negb (existsb (fun other => isParent other uri) uris)) uris.

End Uri.

(** ** Messages, widgets, events *)

(** The part of the DOM that [getConfirmMessage] builds: an element with
    its tag, its text, the [listStyleType] of its style and its
    children. *)
Inductive HTMLElement : Type :=
| Element (tagName : string) (textContent : string)
          (listStyleType : string) (children : list HTMLElement).

Definition createElement (tag : string) : HTMLElement := Element tag "" "" [].

Definition setTextContent (el : HTMLElement) (text : string) : HTMLElement :=
  match el with Element tag _ sty ch => Element tag text sty ch end.

Definition setListStyleType (el : HTMLElement) (sty : string) : HTMLElement :=
  match el with Element tag text _ ch => Element tag text sty ch end.

Definition appendChild (el child : HTMLElement) : HTMLElement :=
  match el with Element tag text sty ch => Element tag text sty (ch ++ [child])%list end.

(** [string | HTMLElement] *)
Inductive Message : Type :=
| MsgText (s : string)
| MsgElement (el : HTMLElement).

(** Modelled from the spec: a view of the view registry.  "each view
    exposes associatedResource, hasUnsavedChanges,
    closeDiscardingChanges(), close()"; [supportsDiscardClose] is the
    capability check "is this a saveable widget". *)
Record Widget : Type := mkWidget {
  widgetId : string;
  associatedResource : option URI;
  supportsDiscardClose : bool;
  hasUnsavedChanges : bool
}.

Definition Error := string.

(** What the handler does to its collaborators, in the order it does it. *)
Inductive Event : Type :=
| DialogOpen (title : string) (msg : Message)
| WidgetCloseWithoutSaving (w : Widget)
| WidgetClose (w : Widget)
| FileSystemDelete (uri : string)
| ConsoleError (e : Error).

(** Template literal rendering of a number. *)
Definition showNat (n : nat) : string := NilZero.string_of_uint (Nat.to_uint n).


(** ** Promises

    An [async] function runs synchronously up to its first [await]; what
    follows runs once the awaited promise has settled.  A promise is
    therefore kept as the events issued synchronously by the call that
    created it, the events that follow when it settles, and its
    outcome. *)

Inductive Result (A : Type) : Type :=
| Resolved (a : A)
| Rejected (e : Error).

Arguments Rejected {A} e.

Record Promise (A : Type) : Type := mkPromise {
  issued : list Event;
  settled : list Event;
  outcome : Result A
}.

(** All the events of a promise, from its creation to its settlement. *)
Definition events {A} (p : Promise A) : list Event :=
  (issued p ++ settled p)%list.

Module Async.

(** [return a] in an async function. *)
Definition ret {A} (a : A) : Promise A := mkPromise [] [] (Resolved a).

(** A synchronous call on a collaborator. *)
Definition call (e : Event) : Promise unit := mkPromise [e] [] (Resolved tt).

(** [const a = await p; k a] *)
Definition await {A B} (p : Promise A) (k : A -> Promise B) : Promise B :=
  mkPromise
    (issued p)
    (settled p ++
       match outcome p with
       | Resolved a => events (k a)
       | Rejected _ => []
       end)%list
    match outcome p with
    | Resolved a => outcome (k a)
    | Rejected e => Rejected e
    end.

(** [p; q] where the promise [p] is dropped (not awaited): [q] goes on
    synchronously, and the outcome of [p] is lost. *)
Definition andThen {A B} (p : Promise A) (q : Promise B) : Promise B :=
  mkPromise (issued p ++ issued q)%list (settled p ++ settled q)%list (outcome q).

(** [try { p } catch (e) { h e }] around an awaited body. *)
Definition tryCatch {A} (p : Promise A) (h : Error -> Promise A) : Promise A :=
  mkPromise
    (issued p)
    (settled p ++
       match outcome p with
       | Resolved _ => []
       | Rejected e => events (h e)
       end)%list
    match outcome p with
    | Resolved a => Resolved a
    | Rejected e => outcome (h e)
    end.

(** The outcome of [Promise.all]: the values, or the first rejection. *)
Fixpoint allOutcome {A} (ps : list (Promise A)) : Result (list A) :=
  match ps with
  | [] => Resolved []
  | p :: ps' =>
      match outcome p with
      | Rejected e => Rejected e
      | Resolved a =>
          match allOutcome ps' with
          | Rejected e => Rejected e
          | Resolved l => Resolved (a :: l)
          end
      end
  end.

(** [Promise.all(ps)]: the promises of [ps] were created one after the
    other (their synchronous parts ran in that order); they settle
    afterwards, here in the order of the array. *)
Definition all {A} (ps : list (Promise A)) : Promise (list A) :=
  mkPromise (List.concat (map (@issued A) ps)) (List.concat (map (@settled A) ps))
    (allOutcome ps).

End Async.

Notation "x <- 'await' p ;; k" := (Async.await p (fun x => k))
  (at level 61, p at next level, right associativity).
Notation "p ;; q" := (Async.andThen p q)
  (at level 61, right associativity).

(** ** Collaborators *)

(** [Map<string, V>]: iteration follows the order in which the keys were
    first set; setting a key again replaces its value in place. *)
Module JsMap.

Definition JsMap (V : Type) := list (string * V).

Fixpoint set {V} (m : JsMap V) (k : string) (v : V) : JsMap V :=
  match m with
  | [] => [(k, v)]
  | (k', v') :: m' =>
      if String.eqb k' k then (k, v) :: m' else (k', v') :: set m' k v
  end.

Definition values {V} (m : JsMap V) : list V := map snd m.

End JsMap.

(** The services injected into the handler, with what they answer: the
    widgets of the shell, the roots of the workspace, how the file system
    settles a delete, and what the user answers to a dialog ([None] is
    [undefined], the dialog was dismissed). *)
Record WorkspaceDeleteHandler : Type := mkHandler {
  shell_widgets : list Widget;
  workspace_roots : list URI;
  fileSystem_outcome : string -> Result unit;
  dialog_answer : string -> Message -> option bool
}.

Module SaveableWidget.

(** Modelled from the spec: [SaveableWidget.is], the capability check
    "is this a saveable widget". *)
Definition is_ (widget : Widget) : bool := supportsDiscardClose widget.

(** Modelled from the spec: [SaveableWidget.getDirty], the saveable
    widgets that hold unsaved changes. *)
Definition getDirty (widgets : list Widget) : list Widget :=
  filter (fun widget => is_ widget && hasUnsavedChanges widget) widgets.

End SaveableWidget.

Module NavigatableWidget.

(** Modelled from the spec: [NavigatableWidget.getAffected], the open
    views bound to one of the resources of [context] or to a descendant
    of one, each with its resource. *)
Definition getAffected (widgets : list Widget) (context : list URI)
  : list (URI * Widget) :=
  flat_map
    (fun widget =>
       match associatedResource widget with
       | Some resourceUri =>
           if existsb (fun uri => Uri.isEqualOrParent uri resourceUri) context
           then [(resourceUri, widget)] else []
       | None => []
       end)
    widgets.

End NavigatableWidget.

Section Handler.

Variable this : WorkspaceDeleteHandler.

(** Modelled from the spec: [WorkspaceUtils.containsRootDirectory], true
    when one of the resources is a workspace root. *)
Definition containsRootDirectory (uris : list URI) : bool :=
  existsb (fun rootUri => existsb (fun uri => Uri.isEqual uri rootUri) uris)
          (workspace_roots this).

(** Modelled from the spec: [FileSystem.delete], "fails asynchronously
    with an I/O-style error". *)
Definition fileSystem_delete (uri : string) : Promise unit :=
  mkPromise [FileSystemDelete uri] [] (fileSystem_outcome this uri).

(** Modelled from the spec: [new ConfirmDialog({title, msg}).open()],
    "undefined/false both mean not confirmed". *)
Definition ConfirmDialog_open (title : string) (msg : Message)
  : Promise (option bool) :=
  mkPromise [DialogOpen title msg] [] (Resolved (dialog_answer this title msg)).

(** ** The handler *)

Definition isVisible (uris : list URI) : bool :=
  negb (List.length uris =? 0)%nat && negb (containsRootDirectory uris).

Definition isEnabled (uris : list URI) : bool :=
  negb (List.length uris =? 0)%nat && negb (containsRootDirectory uris).

Definition getDirty (uris : list URI) : list URI :=
  let widgets :=
    NavigatableWidget.getAffected
      (SaveableWidget.getDirty (shell_widgets this)) uris in
  let dirty :=
    fold_left
      (fun dirty '(resourceUri, _) =>
         JsMap.set dirty (Uri.toString resourceUri) resourceUri)
      widgets [] in
  JsMap.values dirty.

(** [a[0]] is read as [nth 0 a dummyURI]; the handler reads it only from
    an array of length one. *)
Definition dummyURI : URI := mkURI "" [].

Definition getConfirmMessage (uris : list URI) : Message :=
  let dirty := getDirty uris in
  if negb (List.length dirty =? 0)%nat then
    if (List.length dirty =? 1)%nat then
      MsgText ("Do you really want to delete "
               ++ Path.base (path (nth 0 dirty dummyURI))
               ++ " with unsaved changes?")
    else
      MsgText ("Do you really want to delete "
               ++ showNat (List.length dirty)
               ++ " files with unsaved changes?")
  else if (List.length uris =? 1)%nat then
    MsgText ("Do you really want to delete "
             ++ Path.base (path (nth 0 uris dummyURI)) ++ "?")
  else if (10 <? List.length uris)%nat then
    MsgText ("Do you really want to delete all the "
             ++ showNat (List.length uris) ++ " selected files?")
  else
    let messageContainer := createElement "div" in
    let messageContainer :=
      setTextContent messageContainer
        "Do you really want to delete the following files?" in
    let list := createElement "ul" in
    let list := setListStyleType list "none" in
    let list :=
      fold_left
        (fun list uri =>
           let listItem := createElement "li" in
           let listItem := setTextContent listItem (Path.base (path uri)) in
           appendChild list listItem)
        uris list in
    MsgElement (appendChild messageContainer list).

Definition confirm (uris : list URI) : Promise (option bool) :=
  ConfirmDialog_open
    ("Delete File" ++ (if (List.length uris =? 1)%nat then "" else "s"))
    (getConfirmMessage uris).

Definition closeWithoutSaving (uri : URI) : Promise unit :=
  fold_left
    (fun done '(_, widget) =>
       done ;;
       if SaveableWidget.is_ widget
       then Async.call (WidgetCloseWithoutSaving widget)
       else Async.call (WidgetClose widget))
    (NavigatableWidget.getAffected (shell_widgets this) [uri])
    (Async.ret tt).

Definition delete (uri : URI) : Promise unit :=
  Async.tryCatch
    (closeWithoutSaving uri ;;
     _ <- await fileSystem_delete (Uri.toString uri) ;;
     Async.ret tt)
    (fun e => Async.call (ConsoleError e)).

(** A condition on [boolean | undefined]. *)
Definition truthy (b : option bool) : bool :=
  match b with Some true => true | _ => false end.

Definition execute (uris : list URI) : Promise unit :=
  let distinctUris := Uri.getDistinctParents uris in
  ok <- await confirm distinctUris ;;
  if truthy ok then
    _ <- await Async.all (map delete distinctUris) ;;
    Async.ret tt
  else Async.ret tt.

End Handler.

(** The call [closeWithoutSaving] issues on an affected widget. *)
Definition closeCall (affected : URI * Widget) : Event :=
  if SaveableWidget.is_ (snd affected)
  then WidgetCloseWithoutSaving (snd affected)
  else WidgetClose (snd affected).

(** The message for no resource at all: the list form, with no item. *)
Definition emptyListMessage : Message :=
  MsgElement
    (Element "div" "Do you really want to delete the following files?" ""
       [Element "ul" "" "none" []]).

(** Modelled from the spec: the dirty resources as the spec words them,
    to be compared with [getDirty]: "the subset of reduced-selection
    resources that are dirty (have an open view with unsaved changes, or
    an open view whose associated resource is a descendant of the reduced
    resource)". *)
Definition specDirtyResources (this : WorkspaceDeleteHandler) (uris : list URI)
  : list URI :=
  filter
    (fun uri =>
       existsb
         (fun widget =>
            supportsDiscardClose widget && hasUnsavedChanges widget
            && match associatedResource widget with
               | Some resourceUri => Uri.isEqualOrParent uri resourceUri
               | None => false
               end)
         (shell_widgets this))
    uris.

(** ** Reading a trace

    The calls of one kind that a trace holds, in the order of the
    trace. *)

Definition dialogsOpened (trace : list Event) : list (string * Message) :=
  flat_map
    (fun ev => match ev with DialogOpen title msg => [(title, msg)] | _ => [] end)
    trace.

Definition closedWidgets (trace : list Event) : list Widget :=
  flat_map
    (fun ev =>
       match ev with
       | WidgetCloseWithoutSaving w | WidgetClose w => [w]
       | _ => []
       end)
    trace.

Definition fileSystemDeletes (trace : list Event) : list string :=
  flat_map
    (fun ev => match ev with FileSystemDelete uri => [uri] | _ => [] end)
    trace.

Definition loggedErrors (trace : list Event) : list Error :=
  flat_map
    (fun ev => match ev with ConsoleError e => [e] | _ => [] end)
    trace.

(** The loop of [getDirty], from any map. *)
Definition collectDirty (widgets : list (URI * Widget)) (dirty : JsMap.JsMap URI)
  : JsMap.JsMap URI :=
  fold_left
    (fun dirty '(resourceUri, _) =>
       JsMap.set dirty (Uri.toString resourceUri) resourceUri)
    widgets dirty.

(** ** A workbench to run the handler on

    A workspace [file:///ws] with a dirty editor on [a.txt], a clean
    editor and a preview on [dir/b.txt], and a terminal; the file system
    refuses to delete [dir]. *)

Module Demo.

Definition file (segments : list string) : URI := mkURI "file" segments.

Definition ws : URI := file ["ws"].
Definition aTxt : URI := file ["ws"; "a.txt"].
Definition dir : URI := file ["ws"; "dir"].
Definition bTxt : URI := file ["ws"; "dir"; "b.txt"].

Definition editorA : Widget := mkWidget "editor:a.txt" (Some aTxt) true true.
Definition editorB : Widget := mkWidget "editor:b.txt" (Some bTxt) true false.
Definition previewB : Widget := mkWidget "preview:b.txt" (Some bTxt) false false.
Definition terminal : Widget := mkWidget "terminal" None false false.

Definition handler (answer : option bool) : WorkspaceDeleteHandler :=
  mkHandler
    [editorA; editorB; previewB; terminal]
    [ws]
    (fun uri =>
       if String.eqb uri "file:///ws/dir" then Rejected "EACCES" else Resolved tt)
    (fun _ _ => answer).

(** The same workbench with every editor saved. *)
Definition cleanHandler (answer : option bool) : WorkspaceDeleteHandler :=
  mkHandler
    [editorB; previewB; terminal]
    [ws]
    (fun _ => Resolved tt)
    (fun _ _ => answer).

(** A workbench where two dirty widgets show [dir/b.txt]. *)
Definition dirtyB : Widget := mkWidget "editor:b.txt" (Some bTxt) true true.
Definition dirtyDiffB : Widget := mkWidget "diff:b.txt" (Some bTxt) true true.

Definition dirtyBelowHandler : WorkspaceDeleteHandler :=
  mkHandler [dirtyB; dirtyDiffB; terminal] [ws] (fun _ => Resolved tt) (fun _ _ => None).



End Demo.

Example showNat_11 : showNat 11 = "11".
Proof. reflexivity. Qed.

Example execute_confirmed_run :
  execute (Demo.handler (Some true)) [Demo.aTxt; Demo.dir; Demo.bTxt] =
  mkPromise
    [DialogOpen "Delete Files"
       (MsgText "Do you really want to delete a.txt with unsaved changes?")]
    [WidgetCloseWithoutSaving Demo.editorA;
     FileSystemDelete "file:///ws/a.txt";
     WidgetCloseWithoutSaving Demo.editorB;
     WidgetClose Demo.previewB;
     FileSystemDelete "file:///ws/dir";
     ConsoleError "EACCES"]
    (Resolved tt).
Proof. reflexivity. Qed.

Example getConfirmMessage_two_clean :
  getConfirmMessage (Demo.cleanHandler None) [Demo.aTxt; Demo.dir] =
  MsgElement
    (Element "div" "Do you really want to delete the following files?" ""
       [Element "ul" "" "none"
          [Element "li" "a.txt" "" []; Element "li" "dir" "" []]]).
Proof. reflexivity. Qed.

Unset Implicit Arguments.

(** ** Equations of the handler *)

Lemma closeWithoutSaving_loop (l : list (URI * Widget)) (done : Promise unit) :
  fold_left
    (fun done '(_, widget) =>
       done ;;
       if SaveableWidget.is_ widget
       then Async.call (WidgetCloseWithoutSaving widget)
       else Async.call (WidgetClose widget))
    l done
  = mkPromise (issued done ++ map closeCall l)%list (settled done)
      (match l with [] => outcome done | _ => Resolved tt end)
  :> Promise unit.
Proof.
  revert done.
  induction l as [|[resourceUri widget] l IH]; intros done; simpl.
  - rewrite app_nil_r. now destruct done.
  - rewrite IH. unfold closeCall at 2. simpl.
    destruct (SaveableWidget.is_ widget); simpl;
      rewrite app_nil_r, <- app_assoc; simpl; now destruct l.
Qed.

Lemma closeWithoutSaving_eq this uri :
  closeWithoutSaving this uri =
  mkPromise
    (map closeCall (NavigatableWidget.getAffected (shell_widgets this) [uri]))
    [] (Resolved tt).
Proof.
  unfold closeWithoutSaving. rewrite closeWithoutSaving_loop. simpl.
  now destruct (NavigatableWidget.getAffected (shell_widgets this) [uri]).
Qed.

Lemma delete_issued this uri :
  issued (delete this uri) =
  (map closeCall (NavigatableWidget.getAffected (shell_widgets this) [uri])
     ++ [FileSystemDelete (Uri.toString uri)])%list.
Proof.
  unfold delete. rewrite closeWithoutSaving_eq. reflexivity.
Qed.

Lemma delete_settled this uri :
  settled (delete this uri) =
  match fileSystem_outcome this (Uri.toString uri) with
  | Resolved _ => []
  | Rejected e => [ConsoleError e]
  end.
Proof.
  unfold delete. rewrite closeWithoutSaving_eq. simpl.
  now destruct (fileSystem_outcome this (Uri.toString uri)).
Qed.

Lemma delete_outcome this uri : outcome (delete this uri) = Resolved tt.
Proof.
  unfold delete. rewrite closeWithoutSaving_eq. simpl.
  destruct (fileSystem_outcome this (Uri.toString uri)) as [[]|e]; reflexivity.
Qed.

Lemma allOutcome_delete this uris :
  Async.allOutcome (map (delete this) uris) = Resolved (map (fun _ => tt) uris).
Proof.
  induction uris as [|uri uris IH]; [reflexivity|].
  cbn [map Async.allOutcome]. rewrite delete_outcome, IH. reflexivity.
Qed.

Lemma execute_outcome this uris : outcome (execute this uris) = Resolved tt.
Proof.
  unfold execute. simpl.
  destruct (truthy _); simpl; [|reflexivity].
  now rewrite allOutcome_delete.
Qed.

Lemma execute_events this uris :
  events (execute this uris) =
  let distinctUris := Uri.getDistinctParents uris in
  (events (confirm this distinctUris) ++
     match outcome (confirm this distinctUris) with
     | Resolved ok =>
         if truthy ok
         then List.concat (map (fun uri => issued (delete this uri)) distinctUris)
              ++ List.concat (map (fun uri => settled (delete this uri)) distinctUris)
         else []
     | Rejected _ => []
     end)%list.
Proof.
  unfold execute, events, confirm, ConfirmDialog_open, Async.await, Async.all, Async.ret.
  cbn [issued settled outcome events app].
  destruct (truthy _); cbn [issued settled outcome app]; [|reflexivity].
  unfold events; cbn [issued settled].
  rewrite allOutcome_delete, !map_map, app_nil_r. reflexivity.
Qed.

Lemma confirm_events this uris :
  events (confirm this uris) =
  [DialogOpen ("Delete File" ++ (if (List.length uris =? 1)%nat then "" else "s"))
     (getConfirmMessage this uris)].
Proof. reflexivity. Qed.

Lemma confirm_outcome this uris :
  outcome (confirm this uris) =
  Resolved
    (dialog_answer this
       ("Delete File" ++ (if (List.length uris =? 1)%nat then "" else "s"))
       (getConfirmMessage this uris)).
Proof. reflexivity. Qed.

Lemma FileSystemDelete_issued this uri :
  In (FileSystemDelete (Uri.toString uri)) (issued (delete this uri)).
Proof. rewrite delete_issued. apply in_or_app. right. now left. Qed.

Lemma in_concat_map {A B} (f : A -> list B) (l : list A) (a : A) (b : B) :
  In a l -> In b (f a) -> In b (List.concat (map f l)).
Proof.
  intros Ha Hb. apply in_concat. exists (f a). split; [|exact Hb].
  now apply in_map.
Qed.

(** What [execute] does once the user has confirmed. *)
Lemma execute_confirmed_events this uris :
  outcome (confirm this (Uri.getDistinctParents uris)) = Resolved (Some true) ->
  events (execute this uris) =
  (events (confirm this (Uri.getDistinctParents uris))
     ++ List.concat (map (fun uri => issued (delete this uri)) (Uri.getDistinctParents uris))
     ++ List.concat (map (fun uri => settled (delete this uri)) (Uri.getDistinctParents uris)))%list.
Proof.
  intros Hok. rewrite execute_events. cbv zeta. rewrite Hok. reflexivity.
Qed.

(** ** Declining *)

(** C1: for every selection, when the dialog answers [false] or
    [undefined] (it was dismissed), [execute] only opened the dialog: the
    file system's delete is invoked for no resource, no widget is closed,
    and [execute] resolves without an error. *)
Theorem execute_declined_deletes_nothing
  (this : WorkspaceDeleteHandler) (uris : list URI) (answer : option bool) :
  outcome (confirm this (Uri.getDistinctParents uris)) = Resolved answer ->
  answer = Some false \/ answer = None ->
  events (execute this uris) = events (confirm this (Uri.getDistinctParents uris))
  /\ (forall uri, ~ In (FileSystemDelete uri) (events (execute this uris)))
  /\ outcome (execute this uris) = Resolved tt.
Proof.
  intros Hans Hdecl.
  assert (Hev : events (execute this uris)
                = events (confirm this (Uri.getDistinctParents uris))).
  { rewrite execute_events. cbv zeta. rewrite Hans.
    destruct Hdecl as [-> | ->]; simpl truthy; cbv iota; apply app_nil_r. }
  split; [exact Hev|]. split; [|apply execute_outcome].
  intros uri Hin. rewrite Hev, confirm_events in Hin.
  destruct Hin as [Habs | []]. discriminate Habs.
Qed.

Lemma execute_declined_deletes_nothing_witness :
  outcome (confirm (Demo.handler None)
             (Uri.getDistinctParents [Demo.aTxt; Demo.dir; Demo.bTxt]))
  = Resolved None
  /\ events (execute (Demo.handler None) [Demo.aTxt; Demo.dir; Demo.bTxt])
     = [DialogOpen "Delete Files"
          (MsgText "Do you really want to delete a.txt with unsaved changes?")]
  /\ (forall uri,
         ~ In (FileSystemDelete uri)
              (events (execute (Demo.handler None) [Demo.aTxt; Demo.dir; Demo.bTxt])))
  /\ outcome (execute (Demo.handler None) [Demo.aTxt; Demo.dir; Demo.bTxt])
     = Resolved tt.
Proof.
  split; [reflexivity|].
  apply (execute_declined_deletes_nothing
           (Demo.handler None) [Demo.aTxt; Demo.dir; Demo.bTxt] None).
  - reflexivity.
  - right. reflexivity.
Defined.

(** ** Independent deletions *)

(** C2: for every confirmed selection, a delete that the file system
    rejects is caught and logged ([console.error]) inside [delete], whose
    promise resolves all the same; the delete of every resource of the
    reduced selection is issued whatever the other deletes do, the
    rejections are logged, and [execute] resolves. *)
Theorem delete_failures_are_independent
  (this : WorkspaceDeleteHandler) (uris : list URI) :
  outcome (confirm this (Uri.getDistinctParents uris)) = Resolved (Some true) ->
  (forall uri e,
      fileSystem_outcome this (Uri.toString uri) = Rejected e ->
      settled (delete this uri) = [ConsoleError e]
      /\ outcome (delete this uri) = Resolved tt)
  /\ (forall uri,
         In uri (Uri.getDistinctParents uris) ->
         In (FileSystemDelete (Uri.toString uri)) (events (execute this uris)))
  /\ (forall uri e,
         In uri (Uri.getDistinctParents uris) ->
         fileSystem_outcome this (Uri.toString uri) = Rejected e ->
         In (ConsoleError e) (events (execute this uris)))
  /\ outcome (execute this uris) = Resolved tt.
Proof.
  intros Hok. pose proof (execute_confirmed_events this uris Hok) as Hev.
  split; [|split; [|split]].
  - intros uri e Hrej. split; [|apply delete_outcome].
    rewrite delete_settled, Hrej. reflexivity.
  - intros uri Hin. rewrite Hev. apply in_or_app. right. apply in_or_app. left.
    apply in_concat_map with (a := uri); [exact Hin|].
    apply FileSystemDelete_issued.
  - intros uri e Hin Hrej. rewrite Hev. apply in_or_app. right. apply in_or_app. right.
    apply in_concat_map with (a := uri); [exact Hin|].
    rewrite delete_settled, Hrej. now left.
  - apply execute_outcome.
Qed.

Lemma delete_failures_are_independent_witness :
  outcome (confirm (Demo.handler (Some true))
             (Uri.getDistinctParents [Demo.aTxt; Demo.dir; Demo.bTxt]))
  = Resolved (Some true)
  /\ fileSystem_outcome (Demo.handler (Some true)) (Uri.toString Demo.dir)
     = Rejected "EACCES"
  /\ In (FileSystemDelete (Uri.toString Demo.aTxt))
        (events (execute (Demo.handler (Some true)) [Demo.aTxt; Demo.dir; Demo.bTxt]))
  /\ In (ConsoleError "EACCES")
        (events (execute (Demo.handler (Some true)) [Demo.aTxt; Demo.dir; Demo.bTxt]))
  /\ outcome (execute (Demo.handler (Some true)) [Demo.aTxt; Demo.dir; Demo.bTxt])
     = Resolved tt.
Proof.
  destruct (delete_failures_are_independent
              (Demo.handler (Some true)) [Demo.aTxt; Demo.dir; Demo.bTxt] eq_refl)
    as (_ & Hissued & Hlogged & Hout).
  split; [reflexivity|].
  split; [reflexivity|].
  split; [apply Hissued; simpl; now left|].
  split; [|exact Hout].
  apply (Hlogged Demo.dir); [simpl; right; now left | reflexivity].
Defined.

(** ** Closing the widgets of a deleted resource *)

Lemma getAffected_In widgets context widget resourceUri :
  In widget widgets ->
  associatedResource widget = Some resourceUri ->
  existsb (fun uri => Uri.isEqualOrParent uri resourceUri) context = true ->
  In (resourceUri, widget) (NavigatableWidget.getAffected widgets context).
Proof.
  intros Hin Hres Hanc. unfold NavigatableWidget.getAffected.
  apply in_flat_map. exists widget. split; [exact Hin|].
  rewrite Hres, Hanc. now left.
Qed.

Lemma closeCall_not_plain_close affected w :
  supportsDiscardClose w = true -> closeCall affected <> WidgetClose w.
Proof.
  intros Hsav. unfold closeCall, SaveableWidget.is_.
  destruct (supportsDiscardClose (snd affected)) eqn:E; [discriminate|].
  intros Heq. injection Heq as Heq. rewrite Heq in E. congruence.
Qed.

(** C6: for every resource that [delete] handles, every widget of the
    shell bound to the resource or to a descendant of it is closed before
    the file system's delete is issued: a saveable widget through
    [closeWithoutSaving()], dirty or not, and any other widget through
    [close()]; no saveable widget ever receives the plain [close()] that
    would ask about unsaved changes. *)
Theorem delete_closes_affected_widgets_first
  (this : WorkspaceDeleteHandler) (uri : URI)
  (widget : Widget) (resourceUri : URI) :
  In widget (shell_widgets this) ->
  associatedResource widget = Some resourceUri ->
  Uri.isEqualOrParent uri resourceUri = true ->
  exists closes,
    issued (delete this uri) = (closes ++ [FileSystemDelete (Uri.toString uri)])%list
    /\ In (if supportsDiscardClose widget
           then WidgetCloseWithoutSaving widget
           else WidgetClose widget) closes
    /\ (forall w, supportsDiscardClose w = true ->
                  ~ In (WidgetClose w) (events (delete this uri))).
Proof.
  intros Hin Hres Hanc.
  exists (map closeCall (NavigatableWidget.getAffected (shell_widgets this) [uri])).
  split; [apply delete_issued|]. split.
  - change (In (closeCall (resourceUri, widget))
              (map closeCall (NavigatableWidget.getAffected (shell_widgets this) [uri]))).
    apply in_map. apply getAffected_In; [exact Hin | exact Hres |].
    simpl. rewrite Hanc. reflexivity.
  - intros w Hsav Hclose. unfold events in Hclose.
    rewrite delete_issued, delete_settled in Hclose.
    apply in_app_or in Hclose. destruct Hclose as [Hclose | Hclose].
    + apply in_app_or in Hclose. destruct Hclose as [Hclose | [Habs | []]].
      * apply in_map_iff in Hclose. destruct Hclose as (affected & Heq & _).
        exact (closeCall_not_plain_close affected w Hsav Heq).
      * discriminate Habs.
    + destruct (fileSystem_outcome this (Uri.toString uri)); simpl in Hclose.
      * exact Hclose.
      * destruct Hclose as [Habs | []]. discriminate Habs.
Qed.

Lemma delete_closes_affected_widgets_first_witness :
  In Demo.dirtyB (shell_widgets Demo.dirtyBelowHandler)
  /\ Uri.isEqualOrParent Demo.dir Demo.bTxt = true
  /\ exists closes,
       issued (delete Demo.dirtyBelowHandler Demo.dir)
       = (closes ++ [FileSystemDelete "file:///ws/dir"])%list
       /\ In (WidgetCloseWithoutSaving Demo.dirtyB) closes
       /\ (forall w, supportsDiscardClose w = true ->
                     ~ In (WidgetClose w)
                          (events (delete Demo.dirtyBelowHandler Demo.dir))).
Proof.
  split; [left; reflexivity|]. split; [reflexivity|].
  apply (delete_closes_affected_widgets_first
           Demo.dirtyBelowHandler Demo.dir Demo.dirtyB Demo.bTxt).
  - left. reflexivity.
  - reflexivity.
  - reflexivity.
Defined.

Example delete_dir_run :
  issued (delete (Demo.handler (Some true)) Demo.dir) =
  [WidgetCloseWithoutSaving Demo.editorB; WidgetClose Demo.previewB;
   FileSystemDelete "file:///ws/dir"].
Proof. reflexivity. Qed.

(** ** The empty selection *)

Lemma getAffected_no_context widgets :
  NavigatableWidget.getAffected widgets [] = [].
Proof.
  unfold NavigatableWidget.getAffected.
  induction widgets as [|widget widgets IH]; simpl in *; [reflexivity|].
  rewrite IH. now destruct (associatedResource widget).
Qed.

Lemma getDirty_no_uris this : getDirty this [] = [].
Proof. unfold getDirty. rewrite getAffected_no_context. reflexivity. Qed.

(** C7, as the handler has it: [execute] does not reject the empty
    selection.  It opens the confirmation dialog, titled "Delete Files",
    on a message with an empty list, and resolves; whatever the answer, no
    widget is closed and the file system's delete is not invoked. *)
Theorem execute_empty_selection (this : WorkspaceDeleteHandler) :
  events (execute this []) = [DialogOpen "Delete Files" emptyListMessage]
  /\ outcome (execute this []) = Resolved tt.
Proof.
  split; [|apply execute_outcome].
  rewrite execute_events. cbv zeta.
  change (Uri.getDistinctParents []) with (@nil URI).
  rewrite confirm_events, confirm_outcome.
  unfold getConfirmMessage. rewrite getDirty_no_uris. simpl.
  now destruct (truthy _).
Qed.

(** C7, as stated, fails: on the empty selection the dialog is opened and
    [execute] resolves instead of rejecting. *)
Lemma execute_empty_selection_opens_dialog :
  In (DialogOpen "Delete Files" emptyListMessage)
     (events (execute (Demo.handler None) []))
  /\ outcome (execute (Demo.handler None) []) = Resolved tt.
Proof. split; [left|]; reflexivity. Qed.

(** ** Eligibility *)

Lemma Path_isEqual_eq (p q : Path.Path) : Path.isEqual p q = true <-> p = q.
Proof.
  revert q. induction p as [|a p IH]; intros [|b q]; simpl;
    try (split; [discriminate|discriminate]); [tauto|].
  rewrite andb_true_iff, String.eqb_eq, IH.
  split; [intros [-> ->]; reflexivity | intros [= -> ->]; auto].
Qed.

Lemma Uri_isEqual_eq (u v : URI) : Uri.isEqual u v = true <-> u = v.
Proof.
  unfold Uri.isEqual. rewrite andb_true_iff, String.eqb_eq, Path_isEqual_eq.
  destruct u as [su pu], v as [sv pv]; simpl.
  split; [intros [-> ->]; reflexivity | intros [= -> ->]; auto].
Qed.

Lemma containsRootDirectory_true this uris :
  containsRootDirectory this uris = true <->
  exists uri, In uri uris /\ In uri (workspace_roots this).
Proof.
  unfold containsRootDirectory. rewrite existsb_exists. split.
  - intros (rootUri & Hroot & Hex). apply existsb_exists in Hex.
    destruct Hex as (uri & Huri & Heq). apply Uri_isEqual_eq in Heq. subst rootUri.
    now exists uri.
  - intros (uri & Huri & Hroot). exists uri. split; [exact Hroot|].
    apply existsb_exists. exists uri. split; [exact Huri|].
    now apply Uri_isEqual_eq.
Qed.

(** C5: [isVisible] (the eligibility predicate) answers [true] exactly
    for the selections that are non-empty and hold no workspace root. *)
Theorem isVisible_iff_nonempty_without_root
  (this : WorkspaceDeleteHandler) (uris : list URI) :
  isVisible this uris = true <->
  uris <> [] /\ (forall uri, In uri uris -> ~ In uri (workspace_roots this)).
Proof.
  unfold isVisible. rewrite andb_true_iff, !negb_true_iff. split.
  - intros [Hlen Hroot]. split.
    + intros ->. discriminate Hlen.
    + intros uri Huri Hin.
      assert (containsRootDirectory this uris = true) as Habs
          by (apply containsRootDirectory_true; now exists uri).
      congruence.
  - intros [Hne Hnone]. split.
    + destruct uris; [congruence | reflexivity].
    + destruct (containsRootDirectory this uris) eqn:E; [|reflexivity].
      apply containsRootDirectory_true in E. destruct E as (uri & Huri & Hroot).
      destruct (Hnone uri Huri Hroot).
Qed.

Example isVisible_with_root :
  isVisible (Demo.handler None) [Demo.dir; Demo.ws] = false.
Proof. reflexivity. Qed.

Example isVisible_without_root :
  isVisible (Demo.handler None) [Demo.dir; Demo.aTxt] = true.
Proof. reflexivity. Qed.

Example isVisible_empty : isVisible (Demo.handler None) [] = false.
Proof. reflexivity. Qed.

(** C8: the visibility predicate and the enabledness predicate agree on
    every selection. *)
Theorem isVisible_isEnabled (this : WorkspaceDeleteHandler) (uris : list URI) :
  isVisible this uris = isEnabled this uris
  /\ (isVisible this uris = true <-> isEnabled this uris = true).
Proof. split; [reflexivity | tauto]. Qed.

(** ** Distinct parents *)

Lemma filter_all {A} (f : A -> bool) (l : list A) :
  (forall a, In a l -> f a = true) -> filter f l = l.
Proof.
  induction l as [|a l IH]; intros Hall; simpl; [reflexivity|].
  rewrite (Hall a (or_introl eq_refl)). f_equal.
  apply IH. intros b Hb. apply Hall. now right.
Qed.

(** Dropping the elements that have a related element in the list is
    idempotent, whatever the relation: what was kept had no related
    element in the whole list, so it has none among the kept ones. *)
Lemma drop_related_idempotent {A} (related : A -> A -> bool) (l : list A) :
  let reduce l :=
    filter (fun a => negb (existsb (fun other => related other a) l)) l in
  reduce (reduce l) = reduce l.
Proof.
  intros reduce. unfold reduce at 1. apply filter_all.
  intros a Ha. apply filter_In in Ha. destruct Ha as [_ Hfirst].
  apply negb_true_iff in Hfirst. apply negb_true_iff.
  destruct (existsb _ (reduce l)) eqn:E; [|reflexivity].
  apply existsb_exists in E. destruct E as (other & Hother & Hrel).
  assert (existsb (fun other => related other a) l = true) as Habs.
  { apply existsb_exists. exists other. split; [|exact Hrel].
    apply filter_In in Hother. tauto. }
  congruence.
Qed.

(** C9: reducing a selection to its distinct parents twice gives what
    reducing it once gives. *)
Theorem getDistinctParents_idempotent (uris : list URI) :
  Uri.getDistinctParents (Uri.getDistinctParents uris) = Uri.getDistinctParents uris.
Proof. exact (drop_related_idempotent Uri.isParent uris). Qed.

Example getDistinctParents_nested :
  Uri.getDistinctParents [Demo.bTxt; Demo.aTxt; Demo.dir] = [Demo.aTxt; Demo.dir].
Proof. reflexivity. Qed.

(** ** The confirmation message *)


(** The message when some selected resource has a dirty editor. *)
Lemma getConfirmMessage_dirty this uris :
  getDirty this uris <> [] ->
  getConfirmMessage this uris =
  if (List.length (getDirty this uris) =? 1)%nat then
    MsgText ("Do you really want to delete "
             ++ Path.base (path (nth 0 (getDirty this uris) dummyURI))
             ++ " with unsaved changes?")
  else
    MsgText ("Do you really want to delete "
             ++ showNat (List.length (getDirty this uris))
             ++ " files with unsaved changes?").
Proof.
  intros Hne. unfold getConfirmMessage. cbv zeta.
  destruct (getDirty this uris) as [|d dirty]; [congruence | reflexivity].
Qed.

(** The message when no selected resource has a dirty editor. *)
Lemma getConfirmMessage_clean this uris :
  getDirty this uris = [] ->
  getConfirmMessage this uris =
  if (List.length uris =? 1)%nat then
    MsgText ("Do you really want to delete "
             ++ Path.base (path (nth 0 uris dummyURI)) ++ "?")
  else if (10 <? List.length uris)%nat then
    MsgText ("Do you really want to delete all the "
             ++ showNat (List.length uris) ++ " selected files?")
  else
    MsgElement
      (appendChild
         (Element "div" "Do you really want to delete the following files?" "" [])
         (fold_left
            (fun list uri =>
               appendChild list (Element "li" (Path.base (path uri)) "" []))
            uris (Element "ul" "" "none" []))).
Proof.
  intros Hclean. unfold getConfirmMessage. cbv zeta. rewrite Hclean. reflexivity.
Qed.

(** The loop that fills the list appends one item per resource, in the
    order of the selection. *)
Lemma list_items_loop (uris : list URI) tag text sty items :
  fold_left
    (fun list uri => appendChild list (Element "li" (Path.base (path uri)) "" []))
    uris (Element tag text sty items)
  = Element tag text sty
      (items ++ map (fun uri => Element "li" (Path.base (path uri)) "" []) uris)%list.
Proof.
  revert items. induction uris as [|uri uris IH]; intros items; simpl.
  - now rewrite app_nil_r.
  - rewrite IH, <- app_assoc. reflexivity.
Qed.


(** The spec's example: the selection [A] where [A] is open and dirty. *)
Example getConfirmMessage_single_dirty :
  getConfirmMessage (Demo.handler None) [Demo.aTxt] =
  MsgText "Do you really want to delete a.txt with unsaved changes?".
Proof. reflexivity. Qed.

(** The dirty resources are those of the dirty widgets, one per URI
    string: with a folder selected and two dirty widgets on one file below
    it, the message names the file. *)
Example getConfirmMessage_dirty_below :
  getDirty Demo.dirtyBelowHandler [Demo.dir] = [Demo.bTxt]
  /\ getConfirmMessage Demo.dirtyBelowHandler [Demo.dir] =
     MsgText "Do you really want to delete b.txt with unsaved changes?".
Proof. split; reflexivity. Qed.

(** C4: for every reduced selection without a dirty resource the message
    follows the number of resources: one resource is named by its base
    name; more than ten are counted and not named; otherwise the message
    is a list with the base name of every resource of the selection, in
    order. *)
Theorem getConfirmMessage_by_count
  (this : WorkspaceDeleteHandler) (uris : list URI) :
  getDirty this uris = [] ->
  (forall uri,
      uris = [uri] ->
      getConfirmMessage this uris =
      MsgText ("Do you really want to delete " ++ Path.base (path uri) ++ "?"))
  /\ (10 < List.length uris ->
      getConfirmMessage this uris =
      MsgText ("Do you really want to delete all the "
               ++ showNat (List.length uris) ++ " selected files?"))
  /\ (List.length uris <> 1 -> List.length uris <= 10 ->
      getConfirmMessage this uris =
      MsgElement
        (Element "div" "Do you really want to delete the following files?" ""
           [Element "ul" "" "none"
              (map (fun uri => Element "li" (Path.base (path uri)) "" []) uris)])).
Proof.
  intros Hclean. rewrite (getConfirmMessage_clean this uris Hclean).
  split; [|split].
  - intros uri ->. reflexivity.
  - intros Hmany.
    destruct (Nat.eqb_spec (List.length uris) 1) as [E|_]; [lia|].
    destruct (Nat.ltb_spec 10 (List.length uris)) as [_|E]; [reflexivity | lia].
  - intros Hone Hfew.
    destruct (Nat.eqb_spec (List.length uris) 1) as [E|_]; [contradiction|].
    destruct (Nat.ltb_spec 10 (List.length uris)) as [E|_]; [lia|].
    rewrite list_items_loop. reflexivity.
Qed.

Lemma getConfirmMessage_by_count_witness :
  getDirty (Demo.cleanHandler None) [Demo.aTxt; Demo.dir] = []
  /\ getConfirmMessage (Demo.cleanHandler None) [Demo.aTxt; Demo.dir] =
     MsgElement
       (Element "div" "Do you really want to delete the following files?" ""
          [Element "ul" "" "none"
             [Element "li" "a.txt" "" []; Element "li" "dir" "" []]]).
Proof.
  split; [reflexivity|].
  refine (proj2 (proj2 (getConfirmMessage_by_count
                          (Demo.cleanHandler None) [Demo.aTxt; Demo.dir] eq_refl))
            _ _).
  - discriminate.
  - simpl. lia.
Defined.

(** The spec's example: eleven clean resources are counted, not named. *)
Example getConfirmMessage_eleven_clean :
  getConfirmMessage (Demo.cleanHandler None)
    (map (fun name => Demo.file ["ws"; name])
       ["1"; "2"; "3"; "4"; "5"; "6"; "7"; "8"; "9"; "10"; "11"]) =
  MsgText "Do you really want to delete all the 11 selected files?".
Proof. reflexivity. Qed.

(** * Further properties of the handler *)

(** ** Traces *)

Lemma dialogsOpened_app t1 t2 :
  dialogsOpened (t1 ++ t2) = (dialogsOpened t1 ++ dialogsOpened t2)%list.
Proof. apply flat_map_app. Qed.

Lemma closedWidgets_app t1 t2 :
  closedWidgets (t1 ++ t2) = (closedWidgets t1 ++ closedWidgets t2)%list.
Proof. apply flat_map_app. Qed.

Lemma fileSystemDeletes_app t1 t2 :
  fileSystemDeletes (t1 ++ t2) = (fileSystemDeletes t1 ++ fileSystemDeletes t2)%list.
Proof. apply flat_map_app. Qed.

Lemma loggedErrors_app t1 t2 :
  loggedErrors (t1 ++ t2) = (loggedErrors t1 ++ loggedErrors t2)%list.
Proof. apply flat_map_app. Qed.

(** A projection of the traces of a list of calls, call by call. *)
Lemma flat_map_concat_map {A B C} (f : B -> list C) (g : A -> list B) (l : list A) :
  flat_map f (List.concat (map g l)) = flat_map (fun a => flat_map f (g a)) l.
Proof.
  induction l as [|a l IH]; simpl; [reflexivity|].
  rewrite flat_map_app, IH. reflexivity.
Qed.

Lemma flat_map_nil {A B} (f : A -> list B) (l : list A) :
  (forall a, In a l -> f a = []) -> flat_map f l = [].
Proof.
  induction l as [|a l IH]; intros Hnil; simpl; [reflexivity|].
  rewrite (Hnil a (or_introl eq_refl)), IH; [reflexivity|].
  intros b Hb. apply Hnil. now right.
Qed.

Lemma fileSystemDeletes_concat {A} (g : A -> list Event) (l : list A) :
  fileSystemDeletes (List.concat (map g l))
  = flat_map (fun a => fileSystemDeletes (g a)) l.
Proof. apply flat_map_concat_map. Qed.

Lemma loggedErrors_concat {A} (g : A -> list Event) (l : list A) :
  loggedErrors (List.concat (map g l)) = flat_map (fun a => loggedErrors (g a)) l.
Proof. apply flat_map_concat_map. Qed.

Lemma closedWidgets_concat {A} (g : A -> list Event) (l : list A) :
  closedWidgets (List.concat (map g l)) = flat_map (fun a => closedWidgets (g a)) l.
Proof. apply flat_map_concat_map. Qed.

Lemma closeCalls_trace (l : list (URI * Widget)) :
  dialogsOpened (map closeCall l) = []
  /\ closedWidgets (map closeCall l) = map snd l
  /\ fileSystemDeletes (map closeCall l) = []
  /\ loggedErrors (map closeCall l) = [].
Proof.
  induction l as [|[resourceUri widget] l (IHd & IHc & IHf & IHl)]; simpl.
  - repeat split.
  - unfold closeCall at 1 3 5 7. simpl.
    destruct (SaveableWidget.is_ widget); simpl; rewrite IHd, IHc, IHf, IHl;
      repeat split.
Qed.

Lemma delete_issued_trace this uri :
  dialogsOpened (issued (delete this uri)) = []
  /\ closedWidgets (issued (delete this uri))
     = map snd (NavigatableWidget.getAffected (shell_widgets this) [uri])
  /\ fileSystemDeletes (issued (delete this uri)) = [Uri.toString uri]
  /\ loggedErrors (issued (delete this uri)) = [].
Proof.
  rewrite delete_issued.
  rewrite dialogsOpened_app, closedWidgets_app, fileSystemDeletes_app, loggedErrors_app.
  destruct (closeCalls_trace
              (NavigatableWidget.getAffected (shell_widgets this) [uri]))
    as (-> & -> & -> & ->).
  simpl. rewrite app_nil_r. repeat split.
Qed.

Lemma delete_settled_trace this uri :
  dialogsOpened (settled (delete this uri)) = []
  /\ closedWidgets (settled (delete this uri)) = []
  /\ fileSystemDeletes (settled (delete this uri)) = []
  /\ loggedErrors (settled (delete this uri))
     = match fileSystem_outcome this (Uri.toString uri) with
       | Resolved _ => []
       | Rejected e => [e]
       end.
Proof.
  rewrite delete_settled.
  destruct (fileSystem_outcome this (Uri.toString uri)); repeat split.
Qed.

Lemma getDistinctParents_In uris uri :
  In uri (Uri.getDistinctParents uris) -> In uri uris.
Proof. unfold Uri.getDistinctParents. intros H. now apply filter_In in H. Qed.

Lemma getAffected_iff widgets context resourceUri widget :
  In (resourceUri, widget) (NavigatableWidget.getAffected widgets context) <->
  In widget widgets
  /\ associatedResource widget = Some resourceUri
  /\ existsb (fun uri => Uri.isEqualOrParent uri resourceUri) context = true.
Proof.
  unfold NavigatableWidget.getAffected. rewrite in_flat_map. split.
  - intros (w & Hw & Hin). destruct (associatedResource w) as [r|] eqn:Hres; [|destruct Hin].
    destruct (existsb _ context) eqn:Hanc; [|destruct Hin].
    destruct Hin as [[= <- <-] | []]. auto.
  - intros (Hw & Hres & Hanc). exists widget. split; [exact Hw|].
    rewrite Hres, Hanc. now left.
Qed.

(** ** What [execute] does and in which order *)

(** X1: the promises of [delete] and of [execute] never reject, whatever
    the file system answers and whatever the user answers: a caller that
    awaits [execute] never sees an exception. *)
Theorem handler_never_rejects (this : WorkspaceDeleteHandler) :
  (forall uri, outcome (delete this uri) = Resolved tt)
  /\ (forall uris, outcome (execute this uris) = Resolved tt).
Proof. split; [apply delete_outcome | apply execute_outcome]. Qed.

(** X2: [execute] opens exactly one dialog, before anything else: its
    trace starts with the dialog on the reduced selection and holds no
    other dialog, confirmed or not. *)
Theorem execute_opens_one_dialog_first
  (this : WorkspaceDeleteHandler) (uris : list URI) :
  exists rest,
    events (execute this uris)
    = DialogOpen
        ("Delete File"
         ++ (if (List.length (Uri.getDistinctParents uris) =? 1)%nat then "" else "s"))
        (getConfirmMessage this (Uri.getDistinctParents uris))
      :: rest
    /\ dialogsOpened rest = [].
Proof.
  rewrite execute_events. cbv zeta. rewrite confirm_events, confirm_outcome.
  eexists. split; [reflexivity|].
  destruct (truthy _); [|reflexivity].
  rewrite dialogsOpened_app. unfold dialogsOpened at 1 2.
  rewrite !flat_map_concat_map.
  rewrite !flat_map_nil; [reflexivity| |].
  - intros uri _. apply (delete_settled_trace this uri).
  - intros uri _. apply (delete_issued_trace this uri).
Qed.

(** X3: once confirmed, the deletes that [execute] issues are the
    entries of the reduced selection, one delete per entry, in order
    (nothing else is deleted, no entry is tried again); so when the
    reduced selection lists no URI string twice, nothing is deleted
    twice. *)
Theorem execute_deletes_each_once
  (this : WorkspaceDeleteHandler) (uris : list URI) :
  outcome (confirm this (Uri.getDistinctParents uris)) = Resolved (Some true) ->
  fileSystemDeletes (events (execute this uris))
  = map Uri.toString (Uri.getDistinctParents uris)
  /\ (NoDup (map Uri.toString (Uri.getDistinctParents uris)) ->
      NoDup (fileSystemDeletes (events (execute this uris)))).
Proof.
  intros Hok.
  assert (Heq : fileSystemDeletes (events (execute this uris))
                = map Uri.toString (Uri.getDistinctParents uris)).
  { rewrite (execute_confirmed_events this uris Hok), confirm_events.
    rewrite !fileSystemDeletes_app, !fileSystemDeletes_concat.
    rewrite (flat_map_nil (fun uri => fileSystemDeletes (settled (delete this uri)))
               (Uri.getDistinctParents uris)
               (fun uri _ => proj1 (proj2 (proj2 (delete_settled_trace this uri))))).
    rewrite app_nil_r. cbn [fileSystemDeletes flat_map app].
    clear Hok.
    induction (Uri.getDistinctParents uris) as [|uri l IH]; [reflexivity|].
    cbn [flat_map map]. rewrite IH.
    now rewrite (proj1 (proj2 (proj2 (delete_issued_trace this uri)))). }
  split; [exact Heq|]. intros Hnd. rewrite Heq. exact Hnd.
Qed.

Lemma execute_deletes_each_once_witness :
  outcome (confirm (Demo.handler (Some true))
             (Uri.getDistinctParents [Demo.bTxt; Demo.aTxt; Demo.dir]))
  = Resolved (Some true)
  /\ fileSystemDeletes
       (events (execute (Demo.handler (Some true)) [Demo.bTxt; Demo.aTxt; Demo.dir]))
     = ["file:///ws/a.txt"; "file:///ws/dir"].
Proof.
  split; [reflexivity|].
  exact (proj1 (execute_deletes_each_once
                  (Demo.handler (Some true)) [Demo.bTxt; Demo.aTxt; Demo.dir] eq_refl)).
Defined.

(** An identifier that the reduced selection lists twice is deleted
    twice. *)
Example execute_repeated_entry :
  fileSystemDeletes
    (events (execute (Demo.handler (Some true)) [Demo.aTxt; Demo.aTxt]))
  = ["file:///ws/a.txt"; "file:///ws/a.txt"].
Proof. reflexivity. Qed.

(** X4: once confirmed, every widget is closed and every delete is issued
    before the first rejection is logged: the trace after the dialog
    splits into a part without [console.error] and a part with nothing
    else. *)
Theorem execute_issues_before_logging
  (this : WorkspaceDeleteHandler) (uris : list URI) :
  outcome (confirm this (Uri.getDistinctParents uris)) = Resolved (Some true) ->
  exists started finished,
    events (execute this uris)
    = (events (confirm this (Uri.getDistinctParents uris)) ++ started ++ finished)%list
    /\ loggedErrors started = []
    /\ closedWidgets finished = []
    /\ fileSystemDeletes finished = [].
Proof.
  intros Hok.
  exists (List.concat (map (fun uri => issued (delete this uri))
                         (Uri.getDistinctParents uris))),
         (List.concat (map (fun uri => settled (delete this uri))
                         (Uri.getDistinctParents uris))).
  split; [apply (execute_confirmed_events this uris Hok)|].
  unfold loggedErrors, closedWidgets, fileSystemDeletes.
  rewrite !flat_map_concat_map. repeat split; apply flat_map_nil; intros uri _.
  - apply (delete_issued_trace this uri).
  - apply (delete_settled_trace this uri).
  - apply (delete_settled_trace this uri).
Qed.

Lemma execute_issues_before_logging_witness :
  outcome (confirm (Demo.handler (Some true))
             (Uri.getDistinctParents [Demo.dir; Demo.aTxt]))
  = Resolved (Some true)
  /\ exists started finished,
      events (execute (Demo.handler (Some true)) [Demo.dir; Demo.aTxt])
      = (events (confirm (Demo.handler (Some true))
                   (Uri.getDistinctParents [Demo.dir; Demo.aTxt]))
           ++ started ++ finished)%list
      /\ loggedErrors started = []
      /\ closedWidgets finished = []
      /\ fileSystemDeletes finished = [].
Proof.
  split; [reflexivity|].
  exact (execute_issues_before_logging
           (Demo.handler (Some true)) [Demo.dir; Demo.aTxt] eq_refl).
Defined.

Example execute_failing_first_run :
  events (execute (Demo.handler (Some true)) [Demo.dir; Demo.aTxt]) =
  [DialogOpen "Delete Files"
     (MsgText "Do you really want to delete a.txt with unsaved changes?");
   WidgetCloseWithoutSaving Demo.editorB; WidgetClose Demo.previewB;
   FileSystemDelete "file:///ws/dir";
   WidgetCloseWithoutSaving Demo.editorA;
   FileSystemDelete "file:///ws/a.txt";
   ConsoleError "EACCES"].
Proof. reflexivity. Qed.

(** X5: once confirmed, an error is logged exactly when the file system
    rejected the delete of a resource of the reduced selection with it;
    when every delete succeeds nothing is logged. *)
Theorem execute_logs_exactly_the_rejections
  (this : WorkspaceDeleteHandler) (uris : list URI) (e : Error) :
  outcome (confirm this (Uri.getDistinctParents uris)) = Resolved (Some true) ->
  In e (loggedErrors (events (execute this uris))) <->
  exists uri,
    In uri (Uri.getDistinctParents uris)
    /\ fileSystem_outcome this (Uri.toString uri) = Rejected e.
Proof.
  intros Hok. rewrite (execute_confirmed_events this uris Hok), confirm_events.
  rewrite !loggedErrors_app, !loggedErrors_concat.
  rewrite (flat_map_nil (fun uri => loggedErrors (issued (delete this uri)))
             (Uri.getDistinctParents uris)
             (fun uri _ => proj2 (proj2 (proj2 (delete_issued_trace this uri))))).
  cbn [loggedErrors flat_map app]. rewrite in_flat_map. split.
  - intros (uri & Huri & Hin). exists uri. split; [exact Huri|].
    rewrite (proj2 (proj2 (proj2 (delete_settled_trace this uri)))) in Hin.
    destruct (fileSystem_outcome this (Uri.toString uri)); [destruct Hin|].
    destruct Hin as [-> | []]. reflexivity.
  - intros (uri & Huri & Hrej). exists uri. split; [exact Huri|].
    rewrite (proj2 (proj2 (proj2 (delete_settled_trace this uri)))), Hrej.
    now left.
Qed.

Lemma execute_logs_exactly_the_rejections_witness :
  outcome (confirm (Demo.handler (Some true))
             (Uri.getDistinctParents [Demo.dir; Demo.aTxt]))
  = Resolved (Some true)
  /\ In "EACCES"
        (loggedErrors (events (execute (Demo.handler (Some true)) [Demo.dir; Demo.aTxt]))).
Proof.
  split; [reflexivity|].
  apply (execute_logs_exactly_the_rejections
           (Demo.handler (Some true)) [Demo.dir; Demo.aTxt] "EACCES" eq_refl).
  exists Demo.dir. split; [left|]; reflexivity.
Defined.

(** ** Which widgets are closed *)

Lemma delete_closedWidgets this uri :
  closedWidgets (events (delete this uri))
  = map snd (NavigatableWidget.getAffected (shell_widgets this) [uri]).
Proof.
  unfold events. rewrite closedWidgets_app.
  rewrite (proj1 (proj2 (delete_issued_trace this uri))).
  rewrite (proj1 (proj2 (delete_settled_trace this uri))).
  apply app_nil_r.
Qed.

Lemma affected_widget_iff widgets uri widget :
  In widget (map snd (NavigatableWidget.getAffected widgets [uri])) <->
  In widget widgets
  /\ exists resourceUri,
       associatedResource widget = Some resourceUri
       /\ Uri.isEqualOrParent uri resourceUri = true.
Proof.
  rewrite in_map_iff. split.
  - intros ([r w] & Heq & Hin). simpl in Heq. subst w.
    apply getAffected_iff in Hin. destruct Hin as (Hw & Hres & Hanc).
    split; [exact Hw|]. exists r. split; [exact Hres|].
    simpl in Hanc. now rewrite orb_false_r in Hanc.
  - intros (Hw & r & Hres & Hanc). exists (r, widget). split; [reflexivity|].
    apply getAffected_iff. split; [exact Hw|]. split; [exact Hres|].
    simpl. now rewrite Hanc.
Qed.

(** X6: [delete] closes exactly the widgets of the shell that are bound
    to the resource or to a descendant of it: a widget bound to another
    resource, or to none (a terminal), is never closed. *)
Theorem delete_closes_only_affected_widgets
  (this : WorkspaceDeleteHandler) (uri : URI) (widget : Widget) :
  In widget (closedWidgets (events (delete this uri))) <->
  In widget (shell_widgets this)
  /\ exists resourceUri,
       associatedResource widget = Some resourceUri
       /\ Uri.isEqualOrParent uri resourceUri = true.
Proof. rewrite delete_closedWidgets. apply affected_widget_iff. Qed.

Example delete_keeps_other_widgets :
  closedWidgets (events (delete (Demo.handler (Some true)) Demo.dir))
  = [Demo.editorB; Demo.previewB].
Proof. reflexivity. Qed.

(** X7: when the file system rejects the delete of a resource, the
    widgets bound to it or below it have been closed all the same: the
    trace of [delete] is the close of each of them, then the delete, then
    the [console.error], and nothing after it (the close is not undone,
    the delete is not tried again). *)
Theorem delete_rejected_after_closing
  (this : WorkspaceDeleteHandler) (uri : URI) (e : Error) :
  fileSystem_outcome this (Uri.toString uri) = Rejected e ->
  exists closes,
    events (delete this uri)
    = (closes ++ [FileSystemDelete (Uri.toString uri); ConsoleError e])%list
    /\ closedWidgets closes
       = map snd (NavigatableWidget.getAffected (shell_widgets this) [uri])
    /\ (forall widget resourceUri,
           In widget (shell_widgets this) ->
           associatedResource widget = Some resourceUri ->
           Uri.isEqualOrParent uri resourceUri = true ->
           In widget (closedWidgets closes)).
Proof.
  intros Hrej.
  exists (map closeCall (NavigatableWidget.getAffected (shell_widgets this) [uri])).
  split; [|split].
  - unfold events. rewrite delete_issued, delete_settled, Hrej, <- app_assoc.
    reflexivity.
  - apply (closeCalls_trace
             (NavigatableWidget.getAffected (shell_widgets this) [uri])).
  - intros widget r Hw Hres Hanc.
    rewrite (proj1 (proj2 (closeCalls_trace
                             (NavigatableWidget.getAffected (shell_widgets this) [uri])))).
    apply affected_widget_iff. split; [exact Hw|]. now exists r.
Qed.

Lemma delete_rejected_after_closing_witness :
  fileSystem_outcome (Demo.handler None) (Uri.toString Demo.dir) = Rejected "EACCES"
  /\ exists closes,
      events (delete (Demo.handler None) Demo.dir)
      = (closes ++ [FileSystemDelete "file:///ws/dir"; ConsoleError "EACCES"])%list
      /\ closedWidgets closes = [Demo.editorB; Demo.previewB]
      /\ (forall widget resourceUri,
             In widget (shell_widgets (Demo.handler None)) ->
             associatedResource widget = Some resourceUri ->
             Uri.isEqualOrParent Demo.dir resourceUri = true ->
             In widget (closedWidgets closes)).
Proof.
  split; [reflexivity|].
  exact (delete_rejected_after_closing (Demo.handler None) Demo.dir "EACCES" eq_refl).
Defined.

(** X8: once confirmed, [execute] closes a widget only if it is bound to
    a resource of the selection or to a descendant of one; declined, it
    closes none. *)
Theorem execute_closes_only_selected
  (this : WorkspaceDeleteHandler) (uris : list URI) (widget : Widget) :
  In widget (closedWidgets (events (execute this uris))) ->
  outcome (confirm this (Uri.getDistinctParents uris)) = Resolved (Some true)
  /\ In widget (shell_widgets this)
  /\ exists uri resourceUri,
       In uri uris
       /\ associatedResource widget = Some resourceUri
       /\ Uri.isEqualOrParent uri resourceUri = true.
Proof.
  rewrite execute_events. cbv zeta. rewrite confirm_events.
  rewrite closedWidgets_app. cbn [closedWidgets flat_map app].
  destruct (outcome (confirm this (Uri.getDistinctParents uris))) as [ok|e] eqn:Hout;
    [|intros []].
  destruct ok as [[|]|]; cbn [truthy]; try (intros []).
  rewrite closedWidgets_app, !closedWidgets_concat.
  rewrite (flat_map_nil (fun uri => closedWidgets (settled (delete this uri)))
             (Uri.getDistinctParents uris)
             (fun uri _ => proj1 (proj2 (delete_settled_trace this uri)))).
  rewrite app_nil_r, in_flat_map. intros (uri & Huri & Hin).
  rewrite (proj1 (proj2 (delete_issued_trace this uri))) in Hin.
  apply affected_widget_iff in Hin. destruct Hin as (Hw & r & Hres & Hanc).
  split; [reflexivity|]. split; [exact Hw|].
  exists uri, r. split; [|split; assumption].
  now apply getDistinctParents_In.
Qed.

Lemma execute_closes_only_selected_witness :
  In Demo.editorB
     (closedWidgets (events (execute (Demo.handler (Some true)) [Demo.dir])))
  /\ outcome (confirm (Demo.handler (Some true)) (Uri.getDistinctParents [Demo.dir]))
     = Resolved (Some true)
  /\ In Demo.editorB (shell_widgets (Demo.handler (Some true)))
  /\ exists uri resourceUri,
       In uri [Demo.dir]
       /\ associatedResource Demo.editorB = Some resourceUri
       /\ Uri.isEqualOrParent uri resourceUri = true.
Proof.
  split; [left; reflexivity|].
  apply (execute_closes_only_selected (Demo.handler (Some true)) [Demo.dir] Demo.editorB).
  left. reflexivity.
Defined.

(** ** The dirty resources *)

Lemma JsMap_set_In {V} (m : JsMap.JsMap V) k v k' v' :
  In (k', v') (JsMap.set m k v) -> (k' = k /\ v' = v) \/ In (k', v') m.
Proof.
  induction m as [|[k0 v0] m IH]; simpl.
  - intros [[= <- <-] | []]. now left.
  - destruct (String.eqb k0 k); simpl.
    + intros [[= <- <-] | Hin]; [now left | right; now right].
    + intros [Heq | Hin]; [right; now left|].
      destruct (IH Hin) as [Hnew | Hold]; [now left | right; now right].
Qed.

Lemma JsMap_set_keys {V} (m : JsMap.JsMap V) k v k' :
  In k' (map fst (JsMap.set m k v)) <-> k' = k \/ In k' (map fst m).
Proof.
  induction m as [|[k0 v0] m IH]; simpl.
  - intuition.
  - destruct (String.eqb_spec k0 k) as [-> | Hne]; simpl.
    + intuition.
    + rewrite IH. intuition.
Qed.

Lemma JsMap_set_NoDup {V} (m : JsMap.JsMap V) k v :
  NoDup (map fst m) -> NoDup (map fst (JsMap.set m k v)).
Proof.
  induction m as [|[k0 v0] m IH]; simpl; intros Hnd.
  - constructor; [intros [] | constructor].
  - inversion Hnd as [|? ? Hnotin Hnd']; subst.
    destruct (String.eqb_spec k0 k) as [-> | Hne]; simpl.
    + now constructor.
    + constructor; [|now apply IH].
      rewrite JsMap_set_keys. intros [-> | Hin]; [congruence | contradiction].
Qed.

Lemma getDirty_collect this uris :
  getDirty this uris
  = JsMap.values
      (collectDirty
         (NavigatableWidget.getAffected
            (SaveableWidget.getDirty (shell_widgets this)) uris) []).
Proof. reflexivity. Qed.

Lemma collectDirty_entries widgets dirty k v :
  In (k, v) (collectDirty widgets dirty) ->
  In (k, v) dirty \/ (k = Uri.toString v /\ exists widget, In (v, widget) widgets).
Proof.
  revert dirty. induction widgets as [|[r w] widgets IH]; intros dirty; simpl.
  - now left.
  - intros Hin. destruct (IH _ Hin) as [Hset | (Hk & widget & Hw)].
    + destruct (JsMap_set_In _ _ _ _ _ Hset) as [[-> ->] | Hold]; [|now left].
      right. split; [reflexivity|]. exists w. now left.
    + right. split; [exact Hk|]. exists widget. now right.
Qed.

Lemma collectDirty_keys widgets dirty k :
  In k (map fst dirty)
  \/ (exists resourceUri widget,
         In (resourceUri, widget) widgets /\ k = Uri.toString resourceUri) ->
  In k (map fst (collectDirty widgets dirty)).
Proof.
  revert dirty. induction widgets as [|[r w] widgets IH]; intros dirty; simpl.
  - intros [Hin | (? & ? & [] & _)]. exact Hin.
  - intros [Hin | (r' & w' & [[= <- <-] | Hin] & ->)]; apply IH.
    + left. apply JsMap_set_keys. now right.
    + left. apply JsMap_set_keys. now left.
    + right. now exists r', w'.
Qed.

Lemma collectDirty_NoDup widgets dirty :
  NoDup (map fst dirty) -> NoDup (map fst (collectDirty widgets dirty)).
Proof.
  revert dirty. induction widgets as [|[r w] widgets IH]; intros dirty Hnd; simpl.
  - exact Hnd.
  - apply IH. now apply JsMap_set_NoDup.
Qed.

(** In the map of [getDirty] every URI sits under its own string. *)
Lemma keyed_by_toString (m : JsMap.JsMap URI) :
  (forall k v, In (k, v) m -> k = Uri.toString v) ->
  map Uri.toString (JsMap.values m) = map fst m.
Proof.
  unfold JsMap.values.
  induction m as [|[k v] m IH]; intros Hkey; simpl; [reflexivity|].
  rewrite IH; [|intros k' v' Hin; apply Hkey; now right].
  now rewrite <- (Hkey k v (or_introl eq_refl)).
Qed.

Lemma getDirty_strings this uris :
  map Uri.toString (getDirty this uris)
  = map fst
      (collectDirty
         (NavigatableWidget.getAffected
            (SaveableWidget.getDirty (shell_widgets this)) uris) []).
Proof.
  rewrite getDirty_collect. apply keyed_by_toString.
  intros k v Hin. apply collectDirty_entries in Hin.
  destruct Hin as [[] | [Hk _]]. exact Hk.
Qed.

Lemma dirty_affected_iff this uris resourceUri widget :
  In (resourceUri, widget)
     (NavigatableWidget.getAffected
        (SaveableWidget.getDirty (shell_widgets this)) uris) <->
  In widget (shell_widgets this)
  /\ supportsDiscardClose widget = true
  /\ hasUnsavedChanges widget = true
  /\ associatedResource widget = Some resourceUri
  /\ exists uri, In uri uris /\ Uri.isEqualOrParent uri resourceUri = true.
Proof.
  rewrite getAffected_iff. unfold SaveableWidget.getDirty, SaveableWidget.is_.
  rewrite filter_In, andb_true_iff, existsb_exists. tauto.
Qed.

(** X9: the dirty resources are listed once each: no two URIs that
    [getDirty] returns have the same string, however many dirty widgets
    show a resource. *)
Theorem getDirty_distinct (this : WorkspaceDeleteHandler) (uris : list URI) :
  NoDup (map Uri.toString (getDirty this uris)).
Proof.
  rewrite getDirty_strings. apply collectDirty_NoDup. constructor.
Qed.

(** X10: every URI that [getDirty] returns is the resource of a widget of
    the shell that is saveable and holds unsaved changes, and it is a
    selected resource or lies below one. *)
Theorem getDirty_sound
  (this : WorkspaceDeleteHandler) (uris : list URI) (dirty : URI) :
  In dirty (getDirty this uris) ->
  exists widget,
    In widget (shell_widgets this)
    /\ supportsDiscardClose widget = true
    /\ hasUnsavedChanges widget = true
    /\ associatedResource widget = Some dirty
    /\ exists uri, In uri uris /\ Uri.isEqualOrParent uri dirty = true.
Proof.
  rewrite getDirty_collect. unfold JsMap.values. rewrite in_map_iff.
  intros ([k v] & Heq & Hin). simpl in Heq. subst v.
  apply collectDirty_entries in Hin. destruct Hin as [[] | (_ & widget & Hw)].
  exists widget. now apply dirty_affected_iff.
Qed.

Lemma getDirty_sound_witness :
  In Demo.bTxt (getDirty Demo.dirtyBelowHandler [Demo.dir])
  /\ exists widget,
      In widget (shell_widgets Demo.dirtyBelowHandler)
      /\ supportsDiscardClose widget = true
      /\ hasUnsavedChanges widget = true
      /\ associatedResource widget = Some Demo.bTxt
      /\ exists uri, In uri [Demo.dir] /\ Uri.isEqualOrParent uri Demo.bTxt = true.
Proof.
  split; [left; reflexivity|].
  apply (getDirty_sound Demo.dirtyBelowHandler [Demo.dir] Demo.bTxt).
  left. reflexivity.
Defined.

(** X11: no dirty widget is missed: when a saveable widget with unsaved
    changes is bound to a selected resource or below one, [getDirty]
    returns a URI with the string of its resource; in particular the
    result is not empty. *)
Theorem getDirty_complete
  (this : WorkspaceDeleteHandler) (uris : list URI)
  (widget : Widget) (resourceUri uri : URI) :
  In widget (shell_widgets this) ->
  supportsDiscardClose widget = true ->
  hasUnsavedChanges widget = true ->
  associatedResource widget = Some resourceUri ->
  In uri uris ->
  Uri.isEqualOrParent uri resourceUri = true ->
  In (Uri.toString resourceUri) (map Uri.toString (getDirty this uris))
  /\ getDirty this uris <> [].
Proof.
  intros Hw Hsav Hdirty Hres Huri Hanc.
  assert (Hin : In (Uri.toString resourceUri) (map Uri.toString (getDirty this uris))).
  { rewrite getDirty_strings. apply collectDirty_keys. right.
    exists resourceUri, widget. split; [|reflexivity].
    apply dirty_affected_iff. repeat split; try assumption. now exists uri. }
  split; [exact Hin|]. intros Hnil. rewrite Hnil in Hin. destruct Hin.
Qed.

Lemma getDirty_complete_witness :
  In (Uri.toString Demo.bTxt)
     (map Uri.toString (getDirty Demo.dirtyBelowHandler [Demo.aTxt; Demo.dir]))
  /\ getDirty Demo.dirtyBelowHandler [Demo.aTxt; Demo.dir] <> [].
Proof.
  apply (getDirty_complete Demo.dirtyBelowHandler [Demo.aTxt; Demo.dir]
           Demo.dirtyDiffB Demo.bTxt Demo.dir).
  - right. left. reflexivity.
  - reflexivity.
  - reflexivity.
  - reflexivity.
  - right. left. reflexivity.
  - reflexivity.
Defined.

(** ** The gate *)

Lemma containsRootDirectory_same_elements this uris uris' :
  (forall uri, In uri uris <-> In uri uris') ->
  containsRootDirectory this uris = containsRootDirectory this uris'.
Proof.
  intros Hsame. apply eq_true_iff_eq. rewrite !containsRootDirectory_true.
  split; intros (uri & Huri & Hroot); exists uri; (split; [|exact Hroot]);
    now apply Hsame.
Qed.

(** X12: the gate looks at the selection as a set: two selections with
    the same resources, in any order and with any repetition, are both
    visible and enabled or both not. *)
Theorem isVisible_same_elements
  (this : WorkspaceDeleteHandler) (uris uris' : list URI) :
  (forall uri, In uri uris <-> In uri uris') ->
  isVisible this uris = isVisible this uris'
  /\ isEnabled this uris = isEnabled this uris'.
Proof.
  intros Hsame. unfold isVisible, isEnabled.
  rewrite (containsRootDirectory_same_elements this uris uris' Hsame).
  assert ((List.length uris =? 0)%nat = (List.length uris' =? 0)%nat) as ->;
    [|split; reflexivity].
  destruct uris as [|u l], uris' as [|u' l']; try reflexivity.
  - destruct (proj2 (Hsame u') (or_introl eq_refl)).
  - destruct (proj1 (Hsame u) (or_introl eq_refl)).
Qed.

Lemma isVisible_same_elements_witness :
  isVisible (Demo.handler None) [Demo.dir; Demo.aTxt]
  = isVisible (Demo.handler None) [Demo.aTxt; Demo.dir; Demo.aTxt]
  /\ isEnabled (Demo.handler None) [Demo.dir; Demo.aTxt]
     = isEnabled (Demo.handler None) [Demo.aTxt; Demo.dir; Demo.aTxt].
Proof.
  apply (isVisible_same_elements
           (Demo.handler None) [Demo.dir; Demo.aTxt] [Demo.aTxt; Demo.dir; Demo.aTxt]).
  intros uri. simpl. tauto.
Defined.

(** X13: behind the gate no workspace root is deleted: when [isVisible]
    accepts the selection, every delete that [execute] issues is the
    delete of a selected resource that is not a workspace root. *)
Theorem gated_execute_spares_roots
  (this : WorkspaceDeleteHandler) (uris : list URI) (deleted : string) :
  isVisible this uris = true ->
  In deleted (fileSystemDeletes (events (execute this uris))) ->
  exists uri,
    In uri uris
    /\ ~ In uri (workspace_roots this)
    /\ deleted = Uri.toString uri.
Proof.
  intros Hvis. unfold isVisible in Hvis.
  apply andb_true_iff in Hvis. destruct Hvis as [_ Hroot].
  apply negb_true_iff in Hroot.
  rewrite execute_events. cbv zeta. rewrite confirm_events.
  rewrite fileSystemDeletes_app. cbn [fileSystemDeletes flat_map app].
  destruct (outcome (confirm this (Uri.getDistinctParents uris))) as [ok|e];
    [|intros []].
  destruct (truthy ok); [|intros []].
  rewrite fileSystemDeletes_app, !fileSystemDeletes_concat.
  rewrite (flat_map_nil (fun uri => fileSystemDeletes (settled (delete this uri)))
             (Uri.getDistinctParents uris)
             (fun uri _ => proj1 (proj2 (proj2 (delete_settled_trace this uri))))).
  rewrite app_nil_r, in_flat_map. intros (uri & Huri & Hin).
  rewrite (proj1 (proj2 (proj2 (delete_issued_trace this uri)))) in Hin.
  destruct Hin as [<- | []].
  apply getDistinctParents_In in Huri.
  exists uri. split; [exact Huri|]. split; [|reflexivity].
  intros Hin.
  assert (containsRootDirectory this uris = true) as Habs
      by (apply containsRootDirectory_true; now exists uri).
  congruence.
Qed.

Lemma gated_execute_spares_roots_witness :
  isVisible (Demo.handler (Some true)) [Demo.dir; Demo.bTxt] = true
  /\ In "file:///ws/dir"
        (fileSystemDeletes (events (execute (Demo.handler (Some true)) [Demo.dir; Demo.bTxt])))
  /\ exists uri,
      In uri [Demo.dir; Demo.bTxt]
      /\ ~ In uri (workspace_roots (Demo.handler (Some true)))
      /\ "file:///ws/dir" = Uri.toString uri.
Proof.
  split; [reflexivity|]. split; [left; reflexivity|].
  apply (gated_execute_spares_roots
           (Demo.handler (Some true)) [Demo.dir; Demo.bTxt] "file:///ws/dir").
  - reflexivity.
  - left. reflexivity.
Defined.

(** ** The size of the message *)

(** X14: the message is a DOM list only for a selection without dirty
    resource, and the list is bounded: it holds one item per resource of
    the selection, in order, and never more than ten. *)
Theorem getConfirmMessage_list_is_bounded
  (this : WorkspaceDeleteHandler) (uris : list URI) (el : HTMLElement) :
  getConfirmMessage this uris = MsgElement el ->
  getDirty this uris = []
  /\ List.length uris <= 10
  /\ el = Element "div" "Do you really want to delete the following files?" ""
            [Element "ul" "" "none"
               (map (fun uri => Element "li" (Path.base (path uri)) "" []) uris)].
Proof.
  intros Hmsg.
  destruct (getDirty this uris) as [|d dirty] eqn:Hdirty.
  - rewrite (getConfirmMessage_clean this uris Hdirty) in Hmsg.
    destruct (List.length uris =? 1)%nat; [discriminate Hmsg|].
    destruct (Nat.ltb_spec 10 (List.length uris)) as [_|Hfew]; [discriminate Hmsg|].
    rewrite list_items_loop in Hmsg. injection Hmsg as <-.
    split; [reflexivity|]. split; [exact Hfew | reflexivity].
  - rewrite getConfirmMessage_dirty in Hmsg by (rewrite Hdirty; discriminate).
    destruct (List.length (getDirty this uris) =? 1)%nat; discriminate Hmsg.
Qed.

Lemma getConfirmMessage_list_is_bounded_witness :
  getConfirmMessage (Demo.cleanHandler None) [Demo.aTxt; Demo.dir]
  = MsgElement
      (Element "div" "Do you really want to delete the following files?" ""
         [Element "ul" "" "none"
            [Element "li" "a.txt" "" []; Element "li" "dir" "" []]])
  /\ getDirty (Demo.cleanHandler None) [Demo.aTxt; Demo.dir] = []
  /\ List.length [Demo.aTxt; Demo.dir] <= 10
  /\ Element "div" "Do you really want to delete the following files?" ""
       [Element "ul" "" "none"
          [Element "li" "a.txt" "" []; Element "li" "dir" "" []]]
     = Element "div" "Do you really want to delete the following files?" ""
         [Element "ul" "" "none"
            (map (fun uri => Element "li" (Path.base (path uri)) "" [])
               [Demo.aTxt; Demo.dir])].
Proof.
  split; [reflexivity|].
  exact (getConfirmMessage_list_is_bounded
           (Demo.cleanHandler None) [Demo.aTxt; Demo.dir] _ eq_refl).
Defined.

(** ** The dirty resources of the spec and those of the handler *)






(** With one dirty file below the selected folder the message names the
    file, not the folder. *)
Example getConfirmMessage_names_file_below :
  specDirtyResources Demo.dirtyBelowHandler [Demo.dir] = [Demo.dir]
  /\ getConfirmMessage Demo.dirtyBelowHandler [Demo.dir]
     = MsgText "Do you really want to delete b.txt with unsaved changes?".
Proof. split; reflexivity. Qed.
